(** * Epidermis lineage model: cell agents, biology modules and seeding

    A shallow embedding of [epidermis_proj.h]: the custom simulation object
    [MyCell], the three biology modules [StemCell], [TransitAmplifying] and
    [DifferentiatedCell], the bulk creator [MyCellCreator] and the seeding
    call of [Simulate].

    The header is written against the BioDynaMo engine ([biodynamo.h]),
    which is not part of the repository.  Everything the header only calls
    (the [Cell] base class hooks used by a division, the default value of a
    [vec] data member, the random generator) is gathered in the [Engine]
    interface below and stays abstract in every theorem. *)

From Stdlib Require Import ZArith List Bool Lia Floats.
Import ListNotations.

(** ** Data model *)

(** [std::array<double, 3>]; a [double] is a binary64 float. *)
Definition array3 : Type := (float * float * float)%type.

(** [CTList<StemCell, TransitAmplifying, DifferentiatedCell>]: the biology
    modules a [MyCell] may carry. *)
Inductive BiologyModule : Type :=
  | bmStemCell
  | bmTransitAmplifying
  | bmDifferentiatedCell.

(** The members of the engine's [Cell] base class the header reads or
    sets: position, diameter and the attached biology modules. *)
Record Cell : Type := mkCell {
  position_ : array3;
  diameter_ : float;
  biology_modules_ : list BiologyModule
}.

(** [BDM_SIM_OBJECT(MyCell, Cell)] with the two data members
    [can_divide_] and [cell_type_] ([int], held as an integer; the header
    only stores literals in it and compares it with [==]). *)
Record MyCell : Type := mkMyCell {
  base : Cell;
  can_divide_ : bool;
  cell_type_ : Z
}.

(** What the header takes from the engine. *)
Class Engine : Type := {
  (** the division event handed to both division hooks *)
  CellDivisionEvent : Type;
  (** [Base(event, mother)]: the base part of a daughter under construction *)
  Base_division : CellDivisionEvent -> Cell -> Cell;
  (** [Base::EventHandler(event, daughter)] run on the mother, given the
      daughter's base part *)
  Base_EventHandler : CellDivisionEvent -> Cell -> Cell -> Cell;
  (** [Base(position)] leaves the diameter at the engine's default *)
  Cell_diameter_default : float;
  (** a [vec<int>] / [vec<bool>] member no constructor of the header
      initialises *)
  vec_int_default : Z;
  vec_bool_default : bool;
  (** the simulation's random generator and its [Uniform(min, max)] *)
  TRandom : Type;
  Uniform : float -> float -> TRandom -> float * TRandom
}.

(** *** Accessors of [MyCell] and of its base class *)

Definition SetCanDivide (d : bool) (c : MyCell) : MyCell :=
  {| base := base c; can_divide_ := d; cell_type_ := cell_type_ c |}.

Definition GetCanDivide (c : MyCell) : bool := can_divide_ c.

Definition SetCellType (t : Z) (c : MyCell) : MyCell :=
  {| base := base c; can_divide_ := can_divide_ c; cell_type_ := t |}.

Definition GetCellType (c : MyCell) : Z := cell_type_ c.

Definition GetDiameter (c : MyCell) : float := diameter_ (base c).

Definition GetPosition (c : MyCell) : array3 := position_ (base c).

Definition SetDiameter (d : float) (c : MyCell) : MyCell :=
  {| base := {| position_ := position_ (base c);
                diameter_ := d;
                biology_modules_ := biology_modules_ (base c) |};
     can_divide_ := can_divide_ c;
     cell_type_ := cell_type_ c |}.

Definition AddBiologyModule (m : BiologyModule) (c : MyCell) : MyCell :=
  {| base := {| position_ := position_ (base c);
                diameter_ := diameter_ (base c);
                biology_modules_ := biology_modules_ (base c) ++ [m] |};
     can_divide_ := can_divide_ c;
     cell_type_ := cell_type_ c |}.

(** *** Constructors and the division hooks *)

(** [explicit MyCellExt(const std::array<double, 3>& position) : Base(position) {}] *)
Definition MyCellExt_position `{Engine} (position : array3) : MyCell :=
  {| base := {| position_ := position;
                diameter_ := Cell_diameter_default;
                biology_modules_ := [] |};
     can_divide_ := vec_bool_default;
     cell_type_ := vec_int_default |}.

(** [MyCellExt(const CellDivisionEvent& event, TMother* mother)]: the base
    part comes from the engine, [can_divide_] is copied from the mother and
    [cell_type_] is not initialised by the header. *)
Definition MyCellExt_division `{Engine}
    (event : CellDivisionEvent) (mother : MyCell) : MyCell :=
  {| base := Base_division event (base mother);
     can_divide_ := can_divide_ mother;
     cell_type_ := vec_int_default |}.

(** [EventHandler(event, daughter)] only forwards to the base class. *)
Definition EventHandler `{Engine}
    (event : CellDivisionEvent) (daughter : MyCell) (c : MyCell) : MyCell :=
  {| base := Base_EventHandler event (base daughter) (base c);
     can_divide_ := can_divide_ c;
     cell_type_ := cell_type_ c |}.

(** [cell->Divide()] belongs to the engine: it builds the daughter with the
    division constructor and then notifies the mother through
    [EventHandler].  It yields the mother as the call leaves it and the new
    daughter. *)
Definition Divide `{Engine}
    (event : CellDivisionEvent) (cell : MyCell) : MyCell * MyCell :=
  let daughter := MyCellExt_division event cell in
  (EventHandler event daughter cell, daughter).

(** ** Biology modules

    A [Run] returns the cell it was called on and the agents it created. *)

Module StemCell.

Definition Run `{Engine}
    (event : CellDivisionEvent) (cell : MyCell) : MyCell * list MyCell :=
  let '(cell, daughter) := Divide event cell in
  if (GetDiameter cell <? 5)%float && (GetCellType cell =? 1)%Z then
    (cell, [SetCanDivide true (SetCellType 1 daughter)])
  else if (GetDiameter cell <? 8)%float && (GetCellType cell =? 1)%Z then
    (cell, [SetCanDivide true (SetCellType 2 daughter)])
  else
    (SetCanDivide false cell, [daughter]).

End StemCell.

Module TransitAmplifying.

Definition Run `{Engine}
    (event : CellDivisionEvent) (cell : MyCell) : MyCell * list MyCell :=
  let '(cell, daughter) := Divide event cell in
  if (GetDiameter cell <? 8)%float && (GetCellType cell =? 2)%Z then
    (cell, [SetCanDivide true (SetCellType 2 daughter)])
  else if (GetDiameter cell <? 10)%float && (GetCellType cell =? 2)%Z then
    (cell, [SetCanDivide true (SetCellType 3 daughter)])
  else
    (SetCanDivide false cell, [daughter]).

End TransitAmplifying.

Module DifferentiatedCell.

Definition Run (cell : MyCell) : MyCell * list MyCell :=
  if (10 <? GetDiameter cell)%float then (SetCellType 3 cell, [])
  else (cell, []).

End DifferentiatedCell.

(** The diameter a [Run] decides on: [cell->GetDiameter()] is read after
    [cell->Divide()] has returned. *)
Definition decision_diameter `{Engine}
    (event : CellDivisionEvent) (cell : MyCell) : float :=
  GetDiameter (fst (Divide event cell)).

(** The engine calls the [Run] of an attached module once per step. *)
Definition Run `{Engine} (m : BiologyModule)
    (event : CellDivisionEvent) (cell : MyCell) : MyCell * list MyCell :=
  match m with
  | bmStemCell => StemCell.Run event cell
  | bmTransitAmplifying => TransitAmplifying.Run event cell
  | bmDifferentiatedCell => DifferentiatedCell.Run cell
  end.

(** ** Bulk creation

    The resource manager's container for one agent type is driven through
    three calls, [reserve], [push_back] and [Commit].  The container is held
    as the sequence of calls it has received, oldest first, so that nothing
    is assumed about the engine's storage. *)

Inductive ContainerOp (T : Type) : Type :=
  | op_reserve (n : Z)
  | op_push_back (x : T)
  | op_Commit.

Arguments op_reserve {T} n.
Arguments op_push_back {T} x.
Arguments op_Commit {T}.

Definition Container (T : Type) : Type := list (ContainerOp T).

Definition reserve {T} (n : Z) (c : Container T) : Container T :=
  c ++ [op_reserve n].

Definition push_back {T} (x : T) (c : Container T) : Container T :=
  c ++ [op_push_back x].

Definition Commit {T} (c : Container T) : Container T :=
  c ++ [op_Commit].

(** Modelled from the spec: the population a container shows to the rest
    of the simulation.  The container type itself belongs to the engine;
    the specification says that appended agents are accumulated and become
    visible when the batch commit completes.  [population_from visible
    staged ops] replays the calls [ops]. *)
Fixpoint population_from {T} (visible staged : list T)
    (ops : Container T) : list T :=
  match ops with
  | [] => visible
  | op_reserve _ :: ops => population_from visible staged ops
  | op_push_back x :: ops => population_from visible (staged ++ [x]) ops
  | op_Commit :: ops => population_from (visible ++ staged) [] ops
  end.

Definition population {T} (c : Container T) : list T :=
  population_from [] [] c.

(** The body of [for (int i = 0; i < num_cells; i++)], iterated [n] more
    times: two draws, then the builder, then [push_back]. *)
Fixpoint MyCellCreator_loop `{Engine} {T} (n : nat) (min max : float)
    (cell_builder : array3 -> T) (random : TRandom) (container : Container T)
    : TRandom * Container T :=
  match n with
  | O => (random, container)
  | S n' =>
      let '(x, random) := Uniform min max random in
      let '(y, random) := Uniform min max random in
      let z := 0%float in
      let new_simulation_object := cell_builder (x, y, z) in
      MyCellCreator_loop n' min max cell_builder random
        (push_back new_simulation_object container)
  end.

(** [MyCellCreator(min, max, num_cells, cell_builder)] on the active
    simulation's random generator and container.  The loop runs
    [num_cells] times, and not at all for [num_cells <= 0]. *)
Definition MyCellCreator `{Engine} {T} (min max : float) (num_cells : Z)
    (cell_builder : array3 -> T) (sim : TRandom * Container T)
    : TRandom * Container T :=
  let '(random, container) := sim in
  let container := reserve num_cells container in
  let '(random, container) :=
    MyCellCreator_loop (Z.to_nat num_cells) min max cell_builder
      random container in
  (random, Commit container).

(** The [construct_stem] lambda of [Simulate]. *)
Definition construct_stem `{Engine} (position : array3) : MyCell :=
  let cell := MyCellExt_position position in
  let cell := SetDiameter 2%float cell in
  let cell := AddBiologyModule bmStemCell cell in
  let cell := SetCellType 1 cell in
  cell.

(** The bounds [set_param] installs. *)
Definition min_bound_ : float := 0%float.
Definition max_bound_ : float := 250%float.

(** The seeding call of [Simulate]. *)
Definition Simulate_seed `{Engine} (sim : TRandom * Container MyCell)
    : TRandom * Container MyCell :=
  MyCellCreator min_bound_ max_bound_ 200 construct_stem sim.

(** ** A reference engine

    The theorems below hold for every engine.  Closed examples need one to
    compute with. *)

(** Modelled from the spec: the engine's side of a division, which the
    repository does not contain.  The specification describes [Divide] as
    returning a new agent seeded as a geometric and state copy of the
    mother, with the diameter a read-only input to the decision; members
    the header leaves uninitialised are zero and false; [Uniform] returns
    the lower bound and counts its calls. *)
Definition reference_engine : Engine := {|
  CellDivisionEvent := unit;
  Base_division := fun _ mother => mother;
  Base_EventHandler := fun _ _ mother => mother;
  Cell_diameter_default := 1%float;
  vec_int_default := 0%Z;
  vec_bool_default := false;
  TRandom := nat;
  Uniform := fun min _ calls => (min, S calls)
|}.

(** An agent at the origin with the given diameter, flag and type. *)
Definition agent (d : float) (can_divide : bool) (cell_type : Z) : MyCell :=
  {| base := {| position_ := (0, 0, 0)%float;
                diameter_ := d;
                biology_modules_ := [] |};
     can_divide_ := can_divide;
     cell_type_ := cell_type |}.

(** ** Derived notions used by the statements *)

(** Whether a [Run] takes one of the two arms that customise the daughter
    (the guards of the [if] and of the [else if], as written). *)
Definition customises_daughter `{Engine} (m : BiologyModule)
    (event : CellDivisionEvent) (cell : MyCell) : bool :=
  match m with
  | bmStemCell =>
      ((decision_diameter event cell <? 5)%float && (GetCellType cell =? 1)%Z)
      || ((decision_diameter event cell <? 8)%float && (GetCellType cell =? 1)%Z)
  | bmTransitAmplifying =>
      ((decision_diameter event cell <? 8)%float && (GetCellType cell =? 2)%Z)
      || ((decision_diameter event cell <? 10)%float && (GetCellType cell =? 2)%Z)
  | bmDifferentiatedCell => false
  end.

(** Whether a module calls [Divide] at all. *)
Definition calls_Divide (m : BiologyModule) : bool :=
  match m with
  | bmStemCell | bmTransitAmplifying => true
  | bmDifferentiatedCell => false
  end.

(** The engine's writes to an agent between two of its [Run]s (growth,
    displacement): they reach the base class members only. *)
Definition engine_update (f : Cell -> Cell) (c : MyCell) : MyCell :=
  {| base := f (base c);
     can_divide_ := can_divide_ c;
     cell_type_ := cell_type_ c |}.

(** Modelled from the spec: the per-step driver, which the repository does
    not contain.  Once per step the engine invokes the [Run] of a module on
    the agent; before each call it may have changed the agent's base
    members.  A step is the module run, the division event the engine
    would use, and the engine's update.  The result is the agent after the
    last step and all agents created on the way, oldest first. *)
Fixpoint Run_steps `{Engine}
    (steps : list (BiologyModule * CellDivisionEvent * (Cell -> Cell)))
    (cell : MyCell) : MyCell * list MyCell :=
  match steps with
  | [] => (cell, [])
  | (m, event, f) :: steps =>
      let '(cell, created) := Run m event (engine_update f cell) in
      let '(cell, later) := Run_steps steps cell in
      (cell, created ++ later)
  end.

(** The reference engine's simulation before seeding: a generator that
    has made no draw and an empty container. *)
Definition fresh_simulation
    : @TRandom reference_engine * Container MyCell :=
  @pair (@TRandom reference_engine) (Container MyCell) 0%nat [].

(** Three steps of one agent, growing from diameter 4 to 6 and then 9. *)
Definition three_steps
    : list (BiologyModule * @CellDivisionEvent reference_engine * (Cell -> Cell)) :=
  [ (bmStemCell, tt, fun b => b);
    (bmStemCell, tt, fun b => mkCell (position_ b) 6 (biology_modules_ b));
    (bmDifferentiatedCell, tt,
       fun b => mkCell (position_ b) 9 (biology_modules_ b)) ].

(** The positions [n] iterations of the creator's loop draw from the
    generator: for each agent first x, then y, with z fixed at zero. *)
Fixpoint drawn_positions `{Engine} (n : nat) (min max : float)
    (random : TRandom) : list array3 :=
  match n with
  | O => []
  | S n' =>
      let '(x, random) := Uniform min max random in
      let '(y, random) := Uniform min max random in
      (x, y, 0%float) :: drawn_positions n' min max random
  end.

(** [x] lies in the closed interval from [min] to [max]. *)
Definition within (min max x : float) : Prop :=
  (min <=? x)%float = true /\ (x <=? max)%float = true.

(** A position as the creator draws it: x and y within the bounds, z zero. *)
Definition seeded_position (min max : float) (p : array3) : Prop :=
  let '(x, y, z) := p in
  within min max x /\ within min max y /\ z = 0%float.

(** ** Order facts on binary64 values

    The thresholds 5, 8 and 10 are positive finite floats.  The facts below
    are proved on the IEEE 754 specification of the comparisons and hold for
    every value of the compared float, NaN and infinities included. *)

Lemma SFleb_finite_not_SFltb (ma mb : positive) (ea eb : Z) (x : spec_float) :
  SFleb (S754_finite false mb eb) (S754_finite false ma ea) = true ->
  SFleb (S754_finite false ma ea) x = true ->
  SFltb x (S754_finite false mb eb) = false.
Proof.
  unfold SFleb, SFltb.
  destruct x as [s | s | | s m e]; try destruct s; cbn [SFcompare];
    try (intros; (reflexivity || discriminate)).
  change (PosDef.Pos.compare_cont Eq) with Pos.compare.
  destruct (Z.compare_spec eb ea); destruct (Z.compare_spec ea e);
    destruct (Z.compare_spec e eb);
    try (intros; (reflexivity || discriminate || (exfalso; lia))).
  destruct (Pos.compare_spec mb ma); destruct (Pos.compare_spec ma m);
    destruct (Pos.compare_spec m mb);
    intros; (reflexivity || discriminate || (exfalso; lia)).
Qed.

Lemma leb_not_ltb (a b d : float) {ma mb : positive} {ea eb : Z} :
  Prim2SF a = S754_finite false ma ea ->
  Prim2SF b = S754_finite false mb eb ->
  (b <=? a)%float = true ->
  (a <=? d)%float = true ->
  (d <? b)%float = false.
Proof.
  rewrite !leb_spec, ltb_spec. intros -> ->.
  apply SFleb_finite_not_SFltb.
Qed.

Lemma ge_5_not_lt_5 (d : float) :
  (5 <=? d)%float = true -> (d <? 5)%float = false.
Proof. now apply (leb_not_ltb 5 5 d eq_refl eq_refl). Qed.

Lemma ge_8_not_lt_5 (d : float) :
  (8 <=? d)%float = true -> (d <? 5)%float = false.
Proof. now apply (leb_not_ltb 8 5 d eq_refl eq_refl). Qed.

Lemma ge_8_not_lt_8 (d : float) :
  (8 <=? d)%float = true -> (d <? 8)%float = false.
Proof. now apply (leb_not_ltb 8 8 d eq_refl eq_refl). Qed.

Lemma ge_10_not_lt_8 (d : float) :
  (10 <=? d)%float = true -> (d <? 8)%float = false.
Proof. now apply (leb_not_ltb 10 8 d eq_refl eq_refl). Qed.

Lemma ge_10_not_lt_10 (d : float) :
  (10 <=? d)%float = true -> (d <? 10)%float = false.
Proof. now apply (leb_not_ltb 10 10 d eq_refl eq_refl). Qed.

(** ** The lineage rules *)

Section Lineage.

Context {E : Engine}.

(** A division leaves the mother's own members alone and hands her flag
    to the daughter. *)
Lemma Divide_mother_flag (ev : CellDivisionEvent) (c : MyCell) :
  GetCanDivide (fst (Divide ev c)) = GetCanDivide c.
Proof. reflexivity. Qed.

Lemma Divide_mother_unchanged (ev : CellDivisionEvent) (c : MyCell) :
  base (fst (Divide ev c)) = base c -> fst (Divide ev c) = c.
Proof.
  destruct c as [bc fc tc].
  unfold Divide, EventHandler; cbn [fst base can_divide_ cell_type_].
  intros Hb. rewrite Hb. reflexivity.
Qed.

(** The three arms of [StemCell::Run], each under its guard. *)
Lemma StemCell_Run_renew (ev : CellDivisionEvent) (c : MyCell) :
  (decision_diameter ev c <? 5)%float = true ->
  GetCellType c = 1%Z ->
  StemCell.Run ev c =
    (fst (Divide ev c),
     [SetCanDivide true (SetCellType 1 (MyCellExt_division ev c))]).
Proof.
  unfold StemCell.Run, decision_diameter. cbn [Divide fst snd].
  intros Hd Ht. rewrite Hd.
  change (GetCellType (EventHandler ev (MyCellExt_division ev c) c))
    with (GetCellType c).
  rewrite Ht. reflexivity.
Qed.

Lemma StemCell_Run_commit (ev : CellDivisionEvent) (c : MyCell) :
  (decision_diameter ev c <? 5)%float = false ->
  (decision_diameter ev c <? 8)%float = true ->
  GetCellType c = 1%Z ->
  StemCell.Run ev c =
    (fst (Divide ev c),
     [SetCanDivide true (SetCellType 2 (MyCellExt_division ev c))]).
Proof.
  unfold StemCell.Run, decision_diameter. cbn [Divide fst snd].
  intros Hd5 Hd8 Ht. rewrite Hd5, Hd8.
  change (GetCellType (EventHandler ev (MyCellExt_division ev c) c))
    with (GetCellType c).
  rewrite Ht. reflexivity.
Qed.

Lemma StemCell_Run_inactivate (ev : CellDivisionEvent) (c : MyCell) :
  (decision_diameter ev c <? 8)%float && (GetCellType c =? 1)%Z = false ->
  (decision_diameter ev c <? 5)%float && (GetCellType c =? 1)%Z = false ->
  StemCell.Run ev c =
    (SetCanDivide false (fst (Divide ev c)), [MyCellExt_division ev c]).
Proof.
  unfold StemCell.Run, decision_diameter. cbn [Divide fst snd].
  change (GetCellType (EventHandler ev (MyCellExt_division ev c) c))
    with (GetCellType c).
  intros -> ->. reflexivity.
Qed.

(** The three arms of [TransitAmplifying::Run]. *)
Lemma TransitAmplifying_Run_renew (ev : CellDivisionEvent) (c : MyCell) :
  (decision_diameter ev c <? 8)%float = true ->
  GetCellType c = 2%Z ->
  TransitAmplifying.Run ev c =
    (fst (Divide ev c),
     [SetCanDivide true (SetCellType 2 (MyCellExt_division ev c))]).
Proof.
  unfold TransitAmplifying.Run, decision_diameter. cbn [Divide fst snd].
  intros Hd Ht. rewrite Hd.
  change (GetCellType (EventHandler ev (MyCellExt_division ev c) c))
    with (GetCellType c).
  rewrite Ht. reflexivity.
Qed.

Lemma TransitAmplifying_Run_commit (ev : CellDivisionEvent) (c : MyCell) :
  (decision_diameter ev c <? 8)%float = false ->
  (decision_diameter ev c <? 10)%float = true ->
  GetCellType c = 2%Z ->
  TransitAmplifying.Run ev c =
    (fst (Divide ev c),
     [SetCanDivide true (SetCellType 3 (MyCellExt_division ev c))]).
Proof.
  unfold TransitAmplifying.Run, decision_diameter. cbn [Divide fst snd].
  intros Hd8 Hd10 Ht. rewrite Hd8, Hd10.
  change (GetCellType (EventHandler ev (MyCellExt_division ev c) c))
    with (GetCellType c).
  rewrite Ht. reflexivity.
Qed.

Lemma TransitAmplifying_Run_inactivate (ev : CellDivisionEvent) (c : MyCell) :
  (decision_diameter ev c <? 10)%float && (GetCellType c =? 2)%Z = false ->
  (decision_diameter ev c <? 8)%float && (GetCellType c =? 2)%Z = false ->
  TransitAmplifying.Run ev c =
    (SetCanDivide false (fst (Divide ev c)), [MyCellExt_division ev c]).
Proof.
  unfold TransitAmplifying.Run, decision_diameter. cbn [Divide fst snd].
  change (GetCellType (EventHandler ev (MyCellExt_division ev c) c))
    with (GetCellType c).
  intros -> ->. reflexivity.
Qed.

(** Whatever the arm, a stem or transit-amplifying [Run] creates exactly
    one agent, and the mother is the one [Divide] left, with at most her
    flag cleared. *)
Lemma StemCell_Run_shape (ev : CellDivisionEvent) (c : MyCell) :
  exists (b : bool) (d : MyCell),
    StemCell.Run ev c =
      (if b then fst (Divide ev c)
       else SetCanDivide false (fst (Divide ev c)), [d]).
Proof.
  unfold StemCell.Run. cbn [Divide].
  repeat match goal with
  | |- context [if ?g then _ else _] => destruct g
  end;
  first [ now (exists true; eexists) | now (exists false; eexists) ].
Qed.

Lemma TransitAmplifying_Run_shape (ev : CellDivisionEvent) (c : MyCell) :
  exists (b : bool) (d : MyCell),
    TransitAmplifying.Run ev c =
      (if b then fst (Divide ev c)
       else SetCanDivide false (fst (Divide ev c)), [d]).
Proof.
  unfold TransitAmplifying.Run. cbn [Divide].
  repeat match goal with
  | |- context [if ?g then _ else _] => destruct g
  end;
  first [ now (exists true; eexists) | now (exists false; eexists) ].
Qed.

(** So a stem or transit-amplifying [Run] always creates an agent. *)
Lemma Run_creates_one (m : BiologyModule) (ev : CellDivisionEvent)
    (c : MyCell) :
  calls_Divide m = true -> exists d, snd (Run m ev c) = [d].
Proof.
  intros Hm.
  destruct m; [ destruct (StemCell_Run_shape ev c) as (b & d & Heq)
              | destruct (TransitAmplifying_Run_shape ev c) as (b & d & Heq)
              | discriminate ];
    exists d; cbn [Run]; rewrite Heq; reflexivity.
Qed.

(** *** Stem cells *)

(** C1, as amended: for a stem agent (type 1) that can divide and whose
    diameter is at least 8 when [StemCell::Run] decides, the call clears
    the mother's [can_divide]; it still creates exactly one daughter,
    because [Divide] runs before any test, and that daughter is left as
    the division constructor built it, with the mother's flag (true). *)
Theorem StemCell_Run_large_inactivates (ev : CellDivisionEvent) (c : MyCell) :
  GetCellType c = 1%Z ->
  (8 <=? decision_diameter ev c)%float = true ->
  GetCanDivide c = true ->
  snd (StemCell.Run ev c) = [MyCellExt_division ev c]
  /\ GetCanDivide (MyCellExt_division ev c) = true
  /\ GetCanDivide (fst (StemCell.Run ev c)) = false.
Proof.
  intros Ht Hd Hc.
  rewrite StemCell_Run_inactivate.
  - cbn [fst snd]. repeat split. exact Hc.
  - now rewrite (ge_8_not_lt_8 _ Hd).
  - now rewrite (ge_8_not_lt_5 _ Hd).
Qed.

(** C3: for a stem agent (type 1) that can divide, [StemCell::Run] with a
    diameter below 5 creates exactly one agent, of type 1 and able to
    divide, and the mother can still divide; with a diameter in [5, 8) it
    creates exactly one agent, of type 2 and able to divide. *)
Theorem StemCell_Run_divides (ev : CellDivisionEvent) (c : MyCell) :
  GetCellType c = 1%Z ->
  GetCanDivide c = true ->
  ((decision_diameter ev c <? 5)%float = true ->
   exists d, snd (StemCell.Run ev c) = [d]
     /\ GetCellType d = 1%Z /\ GetCanDivide d = true
     /\ GetCanDivide (fst (StemCell.Run ev c)) = true)
  /\ ((5 <=? decision_diameter ev c)%float = true ->
      (decision_diameter ev c <? 8)%float = true ->
      exists d, snd (StemCell.Run ev c) = [d]
        /\ GetCellType d = 2%Z /\ GetCanDivide d = true).
Proof.
  intros Ht Hc. split.
  - intros Hd. rewrite (StemCell_Run_renew _ _ Hd Ht). cbn [fst snd].
    eexists. split; [reflexivity|]. repeat split.
    now rewrite Divide_mother_flag.
  - intros Hd5 Hd8.
    rewrite (StemCell_Run_commit _ _ (ge_5_not_lt_5 _ Hd5) Hd8 Ht).
    cbn [fst snd]. eexists. split; [reflexivity|]. now split.
Qed.

(** *** Transit-amplifying cells *)

(** C4, as amended: for a transit-amplifying agent (type 2) that can
    divide, [TransitAmplifying::Run] splits three ways on the diameter.
    Below 8 it creates one daughter of type 2 able to divide; in [8, 10)
    one daughter of type 3 able to divide; from 10 on it clears the
    mother's [can_divide], and the daughter [Divide] has already created
    stays as the division constructor built it. *)
Theorem TransitAmplifying_Run_split (ev : CellDivisionEvent) (c : MyCell) :
  GetCellType c = 2%Z ->
  GetCanDivide c = true ->
  ((decision_diameter ev c <? 8)%float = true ->
   exists d, snd (TransitAmplifying.Run ev c) = [d]
     /\ GetCellType d = 2%Z /\ GetCanDivide d = true)
  /\ ((8 <=? decision_diameter ev c)%float = true ->
      (decision_diameter ev c <? 10)%float = true ->
      exists d, snd (TransitAmplifying.Run ev c) = [d]
        /\ GetCellType d = 3%Z /\ GetCanDivide d = true)
  /\ ((10 <=? decision_diameter ev c)%float = true ->
      snd (TransitAmplifying.Run ev c) = [MyCellExt_division ev c]
      /\ GetCanDivide (MyCellExt_division ev c) = true
      /\ GetCanDivide (fst (TransitAmplifying.Run ev c)) = false).
Proof.
  intros Ht Hc. repeat apply conj.
  - intros Hd. rewrite (TransitAmplifying_Run_renew _ _ Hd Ht).
    cbn [snd]. eexists. split; [reflexivity|]. now split.
  - intros Hd8 Hd10.
    rewrite (TransitAmplifying_Run_commit _ _ (ge_8_not_lt_8 _ Hd8) Hd10 Ht).
    cbn [snd]. eexists. split; [reflexivity|]. now split.
  - intros Hd. rewrite TransitAmplifying_Run_inactivate.
    + cbn [fst snd]. repeat split. exact Hc.
    + now rewrite (ge_10_not_lt_10 _ Hd).
    + now rewrite (ge_10_not_lt_8 _ Hd).
Qed.

(** *** Differentiated cells *)

(** C5: [DifferentiatedCell::Run] never creates an agent, whatever the
    diameter; above diameter 10 the agent's type is 3 afterwards; and a
    second call on the result changes nothing any more. *)
Theorem DifferentiatedCell_Run_terminal (c : MyCell) :
  snd (DifferentiatedCell.Run c) = []
  /\ ((10 <? GetDiameter c)%float = true ->
      GetCellType (fst (DifferentiatedCell.Run c)) = 3%Z)
  /\ GetDiameter (fst (DifferentiatedCell.Run c)) = GetDiameter c
  /\ DifferentiatedCell.Run (fst (DifferentiatedCell.Run c))
     = (fst (DifferentiatedCell.Run c), []).
Proof.
  unfold DifferentiatedCell.Run.
  destruct (10 <? GetDiameter c)%float eqn:Hd; cbn [fst snd].
  - repeat split.
    change (GetDiameter (SetCellType 3 c)) with (GetDiameter c).
    rewrite Hd. reflexivity.
  - repeat split; [discriminate|]. rewrite Hd. reflexivity.
Qed.

(** *** Frame and mismatched modules *)

(** C9: a stem or transit-amplifying [Run] writes nothing on the mother but
    [can_divide].  The mother it returns is the one [Divide] left, with at
    most the flag cleared: her type is the one she came with, her base
    members are those the engine's division handler produced, and where
    that handler leaves the mother's base members alone her diameter and
    position are unchanged. *)
Theorem Run_mother_frame (m : BiologyModule) (ev : CellDivisionEvent)
    (c : MyCell) :
  calls_Divide m = true ->
  GetCellType (fst (Run m ev c)) = GetCellType c
  /\ base (fst (Run m ev c)) = base (fst (Divide ev c))
  /\ (fst (Run m ev c) = fst (Divide ev c)
      \/ fst (Run m ev c) = SetCanDivide false (fst (Divide ev c)))
  /\ (base (fst (Divide ev c)) = base c ->
      GetDiameter (fst (Run m ev c)) = GetDiameter c
      /\ GetPosition (fst (Run m ev c)) = GetPosition c
      /\ (fst (Run m ev c) = c \/ fst (Run m ev c) = SetCanDivide false c)).
Proof.
  intros Hm.
  assert (Hshape : exists (b : bool) (d : MyCell),
             Run m ev c =
               (if b then fst (Divide ev c)
                else SetCanDivide false (fst (Divide ev c)), [d])).
  { destruct m; [apply StemCell_Run_shape
                | apply TransitAmplifying_Run_shape | discriminate]. }
  destruct Hshape as (b & d & ->). cbn [fst].
  destruct b; (repeat apply conj; [reflexivity | reflexivity | tauto | ]);
    intros Hb; rewrite (Divide_mother_unchanged _ _ Hb); auto.
Qed.

(** C10: on an agent whose type is not 1, [StemCell::Run] still creates a
    daughter, left as the division constructor built it (the mother's
    flag, the type no constructor sets), and clears the mother's
    [can_divide], whatever the diameter; likewise
    [TransitAmplifying::Run] on an agent whose type is not 2. *)
Theorem Run_mismatched_module (ev : CellDivisionEvent) (c : MyCell) :
  (GetCellType c <> 1%Z ->
   StemCell.Run ev c =
     (SetCanDivide false (fst (Divide ev c)), [MyCellExt_division ev c])
   /\ GetCanDivide (MyCellExt_division ev c) = GetCanDivide c
   /\ GetCellType (MyCellExt_division ev c) = vec_int_default
   /\ GetCanDivide (fst (StemCell.Run ev c)) = false)
  /\ (GetCellType c <> 2%Z ->
      TransitAmplifying.Run ev c =
        (SetCanDivide false (fst (Divide ev c)), [MyCellExt_division ev c])
      /\ GetCanDivide (MyCellExt_division ev c) = GetCanDivide c
      /\ GetCellType (MyCellExt_division ev c) = vec_int_default
      /\ GetCanDivide (fst (TransitAmplifying.Run ev c)) = false).
Proof.
  split; intros Ht; apply Z.eqb_neq in Ht.
  - rewrite StemCell_Run_inactivate;
      [ now repeat split | rewrite Ht; apply andb_false_r .. ].
  - rewrite TransitAmplifying_Run_inactivate;
      [ now repeat split | rewrite Ht; apply andb_false_r .. ].
Qed.

(** *** Lineage order and the inherited flag *)

(** Unfolds a [Run] down to its guards and decides them. *)
Ltac run_arms ev c :=
  unfold Run, StemCell.Run, TransitAmplifying.Run, DifferentiatedCell.Run,
    customises_daughter, decision_diameter;
  cbn [Divide fst snd];
  change (GetCellType (EventHandler ev (MyCellExt_division ev c) c))
    with (GetCellType c);
  repeat match goal with
  | |- context [(?x <? ?y)%float] => destruct (x <? y)%float
  | |- context [(?x =? ?y)%Z] => destruct (Z.eqb_spec x y)
  end;
  cbn [andb orb fst snd].

(** C7, as amended: the type never moves backwards where a [Run] sets it.
    For an agent whose type is one of the codes up to 3, the type after
    any [Run] is at least the type before; and a daughter the [Run]
    customises is assigned a type at least her mother's and at most 3.  A
    daughter created in the deactivating arm is assigned no type: she
    stays as the division constructor built her, with a type the header
    never initialises, which may lie below her mother's. *)
Theorem cell_type_never_regresses (m : BiologyModule)
    (ev : CellDivisionEvent) (c : MyCell) :
  (GetCellType c <= 3)%Z ->
  (GetCellType c <= GetCellType (fst (Run m ev c)))%Z
  /\ Forall (fun d =>
       (customises_daughter m ev c = true ->
        (GetCellType c <= GetCellType d <= 3)%Z)
       /\ (customises_daughter m ev c = false ->
           d = MyCellExt_division ev c))
     (snd (Run m ev c)).
Proof.
  intros Ht. destruct m; run_arms ev c; unfold GetCellType in *;
    (split; [ cbn; lia | ]);
    repeat constructor; try discriminate; try reflexivity; cbn; lia.
Qed.

(** C6, as amended: take two mothers that differ at most in [can_divide].
    They take the same arm.  In the two arms that customise the daughter,
    the flag the division constructor copied is overwritten with true and
    the agents created are the same for both mothers.  In the remaining
    arm of a stem or transit-amplifying [Run] nothing overwrites it: the
    daughter is left as constructed and carries her mother's flag. *)
Theorem daughter_flag_overwritten_when_customised (m : BiologyModule)
    (ev : CellDivisionEvent) (c1 c2 : MyCell) :
  base c1 = base c2 ->
  GetCellType c1 = GetCellType c2 ->
  customises_daughter m ev c1 = customises_daughter m ev c2
  /\ (customises_daughter m ev c1 = true ->
      snd (Run m ev c1) = snd (Run m ev c2)
      /\ Forall (fun d => GetCanDivide d = true) (snd (Run m ev c1)))
  /\ (customises_daughter m ev c1 = false ->
      calls_Divide m = true ->
      snd (Run m ev c1) = [MyCellExt_division ev c1]
      /\ GetCanDivide (MyCellExt_division ev c1) = GetCanDivide c1).
Proof.
  destruct c1 as [b1 f1 t1], c2 as [b2 f2 t2]. cbn [base GetCellType cell_type_].
  intros <- <-.
  destruct m;
    unfold customises_daughter, decision_diameter, Run, StemCell.Run,
      TransitAmplifying.Run, DifferentiatedCell.Run, Divide, EventHandler,
      MyCellExt_division, GetDiameter, GetCellType, GetCanDivide,
      SetCanDivide, SetCellType;
    cbn [fst snd base can_divide_ cell_type_];
    repeat match goal with
    | |- context [(?x <? ?y)%float] => destruct (x <? y)%float
    | |- context [(?x =? ?y)%Z] => destruct (x =? y)%Z
    end;
    cbn [andb orb fst snd];
    repeat apply conj; try reflexivity; try discriminate;
    intros; repeat constructor.
Qed.

(** One [Run] never sets the flag of the agent it is called on, and
    creates one agent exactly when its module calls [Divide]. *)
Lemma Run_flag_and_count (m : BiologyModule) (ev : CellDivisionEvent)
    (c : MyCell) :
  GetCanDivide c = false ->
  GetCanDivide (fst (Run m ev c)) = false
  /\ length (snd (Run m ev c)) = (if calls_Divide m then 1 else 0)%nat.
Proof.
  intros Hc. destruct m; run_arms ev c; split; auto.
Qed.

(** C2, as amended: once [can_divide] is false on an agent it stays false
    through every later [Run] on that agent, whatever the engine does to
    its diameter in between.  No [Run] reads the flag, though: each stem
    or transit-amplifying [Run] in the sequence still creates one agent,
    and only the differentiated module creates none. *)
Theorem can_divide_false_is_stable
    (steps : list (BiologyModule * CellDivisionEvent * (Cell -> Cell)))
    (c : MyCell) :
  GetCanDivide c = false ->
  GetCanDivide (fst (Run_steps steps c)) = false
  /\ length (snd (Run_steps steps c))
     = length (filter (fun s => calls_Divide (fst (fst s))) steps).
Proof.
  revert c. induction steps as [| [[m ev] f] steps IH]; intros c Hc.
  - split; [exact Hc | reflexivity].
  - cbn [Run_steps filter fst].
    destruct (Run_flag_and_count m ev (engine_update f c) Hc) as [Hflag Hlen].
    destruct (Run m ev (engine_update f c)) as [c' created].
    cbn [fst snd] in Hflag, Hlen.
    destruct (IH c' Hflag) as [IHflag IHlen].
    destruct (Run_steps steps c') as [c'' later].
    cbn [fst snd] in IHflag, IHlen |- *.
    split; [exact IHflag|].
    rewrite length_app, Hlen, IHlen.
    destruct (calls_Divide m); reflexivity.
Qed.

End Lineage.

(** ** Seeding *)

Section Seeding.

Context {E : Engine}.

Lemma population_from_push_backs {T} (l visible staged : list T)
    (rest : Container T) :
  population_from visible staged (map op_push_back l ++ rest)
  = population_from visible (staged ++ l) rest.
Proof.
  revert staged. induction l as [| x l IH]; intros staged; cbn.
  - now rewrite app_nil_r.
  - rewrite IH, <- app_assoc. reflexivity.
Qed.

(** The loop performs one [push_back] per iteration, on the builder's
    result at the next drawn position. *)
Lemma MyCellCreator_loop_pushes {T} (min max : float)
    (cell_builder : array3 -> T) (n : nat) :
  forall random container,
    snd (MyCellCreator_loop n min max cell_builder random container)
    = container
        ++ map op_push_back
             (map cell_builder (drawn_positions n min max random)).
Proof.
  induction n as [| n IH]; intros random container.
  - cbn. now rewrite app_nil_r.
  - cbn [MyCellCreator_loop drawn_positions].
    destruct (Uniform min max random) as [x r1].
    destruct (Uniform min max r1) as [y r2].
    rewrite IH. unfold push_back. rewrite <- app_assoc. reflexivity.
Qed.

Lemma drawn_positions_length (min max : float) (n : nat) :
  forall random, length (drawn_positions n min max random) = n.
Proof.
  induction n as [| n IH]; intros random; cbn [drawn_positions].
  - reflexivity.
  - destruct (Uniform min max random) as [x r1].
    destruct (Uniform min max r1) as [y r2].
    cbn. now rewrite IH.
Qed.

Lemma drawn_positions_seeded (min max : float) (n : nat) :
  (forall r, within min max (fst (Uniform min max r))) ->
  forall random,
    Forall (seeded_position min max) (drawn_positions n min max random).
Proof.
  intros Hrange. induction n as [| n IH]; intros random;
    cbn [drawn_positions].
  - constructor.
  - pose proof (Hrange random) as Hx.
    destruct (Uniform min max random) as [x r1]. cbn [fst] in Hx.
    pose proof (Hrange r1) as Hy.
    destruct (Uniform min max r1) as [y r2]. cbn [fst] in Hy.
    constructor; [unfold seeded_position; auto | apply IH].
Qed.

(** C8: for a non-negative count, [MyCellCreator(min, max, count, builder)]
    creates exactly [count] agents, the builder's results at the [count]
    positions drawn from the generator: x and y are successive draws of
    [Uniform(min, max)], within the bounds whenever the generator keeps its
    range, and z is 0.  The container receives [reserve(count)], one
    [push_back] per agent and a single [Commit] at the end, so that the
    committed population of a fresh container is exactly these agents (the
    empty population for count 0); with the builder of [Simulate] every
    agent sits at its drawn position. *)
Theorem MyCellCreator_seeds {T} (min max : float) (count : Z)
    (cell_builder : array3 -> T) (random : TRandom) :
  (0 <= count)%Z ->
  (forall r, within min max (fst (Uniform min max r))) ->
  let positions := drawn_positions (Z.to_nat count) min max random in
  Z.of_nat (length positions) = count
  /\ Forall (seeded_position min max) positions
  /\ (forall container,
        snd (MyCellCreator min max count cell_builder (random, container))
        = container ++ [op_reserve count]
            ++ map op_push_back (map cell_builder positions)
            ++ [op_Commit])
  /\ population
       (snd (MyCellCreator min max count cell_builder (random, [])))
     = map cell_builder positions
  /\ Forall (fun a => seeded_position min max (GetPosition a))
       (map construct_stem positions)
  /\ (count = 0%Z -> positions = []).
Proof.
  intros Hcount Hrange positions.
  assert (Hcreator : forall container,
    snd (MyCellCreator min max count cell_builder (random, container))
    = container ++ [op_reserve count]
        ++ map op_push_back (map cell_builder positions) ++ [op_Commit]).
  { intros container. unfold MyCellCreator.
    pose proof (MyCellCreator_loop_pushes min max cell_builder
                  (Z.to_nat count) random (reserve count container)) as Hlog.
    destruct (MyCellCreator_loop (Z.to_nat count) min max cell_builder
                random (reserve count container)) as [r log].
    cbn [snd] in Hlog |- *. rewrite Hlog. unfold Commit, reserve.
    now rewrite <- !app_assoc. }
  repeat apply conj.
  - unfold positions. rewrite drawn_positions_length. lia.
  - now apply drawn_positions_seeded.
  - exact Hcreator.
  - rewrite Hcreator. unfold population. cbn [app population_from].
    rewrite population_from_push_backs. reflexivity.
  - rewrite Forall_map. now apply drawn_positions_seeded.
  - intros ->. reflexivity.
Qed.

End Seeding.

(** ** Closed instances on the reference engine *)

(** C1 as stated fails: a stem agent of diameter 9 that can divide does
    get a daughter from [StemCell::Run]. *)
Lemma StemCell_Run_large_creates_daughter :
  GetCellType (agent 9 true 1) = 1%Z
  /\ (8 <=? GetDiameter (agent 9 true 1))%float = true
  /\ GetCanDivide (agent 9 true 1) = true
  /\ snd (@StemCell.Run reference_engine tt (agent 9 true 1)) = [agent 9 true 0]
  /\ snd (@StemCell.Run reference_engine tt (agent 9 true 1)) <> []
  /\ (forall (E : Engine) ev c, snd (@Run E bmStemCell ev c) <> []).
Proof.
  repeat split; try discriminate.
  intros E ev c. destruct (@Run_creates_one E bmStemCell ev c eq_refl) as [d ->].
  discriminate.
Qed.

Lemma StemCell_Run_large_inactivates_witness :
  snd (@StemCell.Run reference_engine tt (agent 9 true 1))
  = [@MyCellExt_division reference_engine tt (agent 9 true 1)]
  /\ GetCanDivide (@MyCellExt_division reference_engine tt (agent 9 true 1)) = true
  /\ GetCanDivide (fst (@StemCell.Run reference_engine tt (agent 9 true 1))) = false.
Proof.
  apply (@StemCell_Run_large_inactivates reference_engine tt (agent 9 true 1));
    reflexivity.
Defined.

(** C2 as stated fails: a stem agent whose [can_divide] is false still
    gets a daughter from the [Run] of its own module. *)
Lemma Run_ignores_can_divide :
  GetCanDivide (agent 4 false 1) = false
  /\ GetCellType (agent 4 false 1) = 1%Z
  /\ snd (@Run reference_engine bmStemCell tt (agent 4 false 1)) = [agent 4 true 1]
  /\ snd (@Run reference_engine bmStemCell tt (agent 4 false 1)) <> []
  /\ (forall (E : Engine) m ev c,
        calls_Divide m = true -> GetCanDivide c = false ->
        snd (@Run E m ev c) <> []).
Proof.
  repeat split; try discriminate.
  intros E m ev c Hm _. destruct (@Run_creates_one E m ev c Hm) as [d ->].
  discriminate.
Qed.

Lemma can_divide_false_is_stable_witness :
  GetCanDivide (fst (@Run_steps reference_engine three_steps (agent 4 false 1))) = false
  /\ length (snd (@Run_steps reference_engine three_steps (agent 4 false 1)))
     = length (filter (fun s => calls_Divide (fst (fst s))) three_steps).
Proof.
  apply (@can_divide_false_is_stable reference_engine three_steps (agent 4 false 1)).
  reflexivity.
Defined.

Lemma StemCell_Run_divides_witness :
  ((@decision_diameter reference_engine tt (agent 4 true 1) <? 5)%float = true ->
   exists d, snd (@StemCell.Run reference_engine tt (agent 4 true 1)) = [d]
     /\ GetCellType d = 1%Z /\ GetCanDivide d = true
     /\ GetCanDivide (fst (@StemCell.Run reference_engine tt (agent 4 true 1))) = true)
  /\ ((5 <=? @decision_diameter reference_engine tt (agent 4 true 1))%float = true ->
      (@decision_diameter reference_engine tt (agent 4 true 1) <? 8)%float = true ->
      exists d, snd (@StemCell.Run reference_engine tt (agent 4 true 1)) = [d]
        /\ GetCellType d = 2%Z /\ GetCanDivide d = true).
Proof.
  apply (@StemCell_Run_divides reference_engine tt (agent 4 true 1)); reflexivity.
Defined.

(** C4 as stated fails in its third case: a transit-amplifying agent of
    diameter 12 that can divide does get a daughter. *)
Lemma TransitAmplifying_Run_large_creates_daughter :
  GetCellType (agent 12 true 2) = 2%Z
  /\ GetCanDivide (agent 12 true 2) = true
  /\ (10 <=? GetDiameter (agent 12 true 2))%float = true
  /\ snd (@TransitAmplifying.Run reference_engine tt (agent 12 true 2))
     = [agent 12 true 0]
  /\ snd (@TransitAmplifying.Run reference_engine tt (agent 12 true 2)) <> []
  /\ (forall (E : Engine) ev c, snd (@Run E bmTransitAmplifying ev c) <> []).
Proof.
  repeat split; try discriminate.
  intros E ev c.
  destruct (@Run_creates_one E bmTransitAmplifying ev c eq_refl) as [d ->].
  discriminate.
Qed.

Lemma TransitAmplifying_Run_split_witness :
  snd (@TransitAmplifying.Run reference_engine tt (agent 12 true 2))
  = [@MyCellExt_division reference_engine tt (agent 12 true 2)]
  /\ GetCanDivide (@MyCellExt_division reference_engine tt (agent 12 true 2)) = true
  /\ GetCanDivide (fst (@TransitAmplifying.Run reference_engine tt (agent 12 true 2)))
     = false.
Proof.
  apply (@TransitAmplifying_Run_split reference_engine tt (agent 12 true 2));
    reflexivity.
Defined.

Lemma DifferentiatedCell_Run_terminal_witness :
  GetCellType (fst (DifferentiatedCell.Run (agent 11 false 2))) = 3%Z.
Proof.
  apply (DifferentiatedCell_Run_terminal (agent 11 false 2)).
  reflexivity.
Defined.

(** C6 as stated fails: two stem mothers of diameter 9 that differ only
    in [can_divide] get different daughters, each carrying her mother's
    flag. *)
Lemma inherited_flag_observed :
  base (agent 9 true 1) = base (agent 9 false 1)
  /\ GetCellType (agent 9 true 1) = GetCellType (agent 9 false 1)
  /\ snd (@StemCell.Run reference_engine tt (agent 9 true 1)) = [agent 9 true 0]
  /\ snd (@StemCell.Run reference_engine tt (agent 9 false 1)) = [agent 9 false 0]
  /\ snd (@StemCell.Run reference_engine tt (agent 9 true 1))
     <> snd (@StemCell.Run reference_engine tt (agent 9 false 1))
  /\ (forall (E : Engine) ev b t,
        @customises_daughter E bmStemCell ev (mkMyCell b true t) = false ->
        snd (@StemCell.Run E ev (mkMyCell b true t))
        <> snd (@StemCell.Run E ev (mkMyCell b false t))).
Proof.
  repeat split; try discriminate.
  intros E ev b t Harm.
  apply orb_false_elim in Harm. destruct Harm as [H5 H8].
  rewrite (@StemCell_Run_inactivate E ev (mkMyCell b true t) H8 H5).
  rewrite (@StemCell_Run_inactivate E ev (mkMyCell b false t) H8 H5).
  discriminate.
Qed.

Lemma daughter_flag_overwritten_when_customised_witness :
  @customises_daughter reference_engine bmStemCell tt (agent 6 true 1)
  = @customises_daughter reference_engine bmStemCell tt (agent 6 false 1)
  /\ (@customises_daughter reference_engine bmStemCell tt (agent 6 true 1) = true ->
      snd (@Run reference_engine bmStemCell tt (agent 6 true 1))
      = snd (@Run reference_engine bmStemCell tt (agent 6 false 1))
      /\ Forall (fun d => GetCanDivide d = true)
           (snd (@Run reference_engine bmStemCell tt (agent 6 true 1))))
  /\ (@customises_daughter reference_engine bmStemCell tt (agent 6 true 1) = false ->
      calls_Divide bmStemCell = true ->
      snd (@Run reference_engine bmStemCell tt (agent 6 true 1))
      = [@MyCellExt_division reference_engine tt (agent 6 true 1)]
      /\ GetCanDivide (@MyCellExt_division reference_engine tt (agent 6 true 1))
         = GetCanDivide (agent 6 true 1)).
Proof.
  apply (@daughter_flag_overwritten_when_customised reference_engine bmStemCell tt
           (agent 6 true 1) (agent 6 false 1)); reflexivity.
Defined.

(** C7 as stated fails: the daughter a stem mother of diameter 9 gets in
    the deactivating arm has the type the constructor left, here 0, below
    her mother's 1; for every engine that daughter's type is the
    uninitialised default, whatever the mother's type.  And an agent
    holding a code above 3 is set back to 3 by [DifferentiatedCell::Run]. *)
Lemma unassigned_daughter_type_below_mother :
  GetCellType (agent 9 true 1) = 1%Z
  /\ snd (@Run reference_engine bmStemCell tt (agent 9 true 1))
     = [agent 9 true 0]
  /\ (GetCellType (agent 9 true 0) < GetCellType (agent 9 true 1))%Z
  /\ (forall (E : Engine) ev c,
        GetCellType c = 1%Z ->
        (8 <=? @decision_diameter E ev c)%float = true ->
        exists d, snd (@Run E bmStemCell ev c) = [d]
          /\ GetCellType d = @vec_int_default E)
  /\ (GetCellType (fst (@Run reference_engine bmDifferentiatedCell tt
                          (agent 11 false 4)))
      < GetCellType (agent 11 false 4))%Z.
Proof.
  repeat split.
  intros E ev c Ht Hd. exists (@MyCellExt_division E ev c).
  cbn [Run]. rewrite StemCell_Run_inactivate.
  - split; reflexivity.
  - now rewrite (ge_8_not_lt_8 _ Hd).
  - now rewrite (ge_8_not_lt_5 _ Hd).
Qed.

Lemma cell_type_never_regresses_witness :
  (GetCellType (agent 9 true 2)
   <= GetCellType (fst (@Run reference_engine bmTransitAmplifying tt (agent 9 true 2))))%Z
  /\ Forall (fun d =>
       (@customises_daughter reference_engine bmTransitAmplifying tt (agent 9 true 2) = true ->
        (GetCellType (agent 9 true 2) <= GetCellType d <= 3)%Z)
       /\ (@customises_daughter reference_engine bmTransitAmplifying tt (agent 9 true 2)
           = false ->
           d = @MyCellExt_division reference_engine tt (agent 9 true 2)))
     (snd (@Run reference_engine bmTransitAmplifying tt (agent 9 true 2))).
Proof.
  apply (@cell_type_never_regresses reference_engine bmTransitAmplifying tt
           (agent 9 true 2)).
  cbn. lia.
Defined.

Lemma Run_mother_frame_witness :
  GetDiameter (fst (@Run reference_engine bmStemCell tt (agent 9 true 1)))
  = GetDiameter (agent 9 true 1)
  /\ GetPosition (fst (@Run reference_engine bmStemCell tt (agent 9 true 1)))
     = GetPosition (agent 9 true 1)
  /\ (fst (@Run reference_engine bmStemCell tt (agent 9 true 1)) = agent 9 true 1
      \/ fst (@Run reference_engine bmStemCell tt (agent 9 true 1))
         = SetCanDivide false (agent 9 true 1)).
Proof.
  apply (@Run_mother_frame reference_engine bmStemCell tt (agent 9 true 1)); reflexivity.
Defined.

Lemma Run_mismatched_module_witness :
  @StemCell.Run reference_engine tt (agent 4 true 2)
  = (SetCanDivide false (fst (@Divide reference_engine tt (agent 4 true 2))),
     [@MyCellExt_division reference_engine tt (agent 4 true 2)])
  /\ GetCanDivide (@MyCellExt_division reference_engine tt (agent 4 true 2))
     = GetCanDivide (agent 4 true 2)
  /\ GetCellType (@MyCellExt_division reference_engine tt (agent 4 true 2))
     = @vec_int_default reference_engine
  /\ GetCanDivide (fst (@StemCell.Run reference_engine tt (agent 4 true 2))) = false.
Proof.
  apply (proj1 (@Run_mismatched_module reference_engine tt (agent 4 true 2))).
  discriminate.
Defined.


Lemma MyCellCreator_seeds_witness :
  (length (population
     (snd (@Simulate_seed reference_engine fresh_simulation))) = 200%nat
   /\ Forall (fun a => seeded_position min_bound_ max_bound_ (GetPosition a))
        (population (snd (@Simulate_seed reference_engine fresh_simulation))))
  /\ population
       (snd (@MyCellCreator reference_engine MyCell min_bound_ max_bound_ 0
               (@construct_stem reference_engine) fresh_simulation)) = [].
Proof.
  unfold Simulate_seed, fresh_simulation. split.
  - destruct (@MyCellCreator_seeds reference_engine MyCell min_bound_
                max_bound_ 200 (@construct_stem reference_engine) 0%nat)
      as (Hlen & _ & _ & Hpop & Hpos & _);
      [lia | intros r; split; reflexivity | ].
    unfold Container in *. rewrite Hpop. split; [| exact Hpos].
    rewrite length_map. apply Nat2Z.inj. exact Hlen.
  - destruct (@MyCellCreator_seeds reference_engine MyCell min_bound_
                max_bound_ 0 (@construct_stem reference_engine) 0%nat)
      as (_ & _ & _ & Hpop & _ & Hnil);
      [lia | intros r; split; reflexivity | ].
    unfold Container in *. rewrite Hpop, (Hnil eq_refl). reflexivity.
Defined.

(** ** Further order facts on binary64 values *)

Lemma SFltb_finite_trans (ma mb : positive) (ea eb : Z) (x : spec_float) :
  SFleb (S754_finite false ma ea) (S754_finite false mb eb) = true ->
  SFltb x (S754_finite false ma ea) = true ->
  SFltb x (S754_finite false mb eb) = true.
Proof.
  unfold SFleb, SFltb.
  destruct x as [s | s | | s m e]; try destruct s; cbn [SFcompare];
    try (intros; (reflexivity || discriminate)).
  change (PosDef.Pos.compare_cont Eq) with Pos.compare.
  destruct (Z.compare_spec ea eb); destruct (Z.compare_spec e ea);
    destruct (Z.compare_spec e eb);
    try (intros; (reflexivity || discriminate || (exfalso; lia))).
  destruct (Pos.compare_spec ma mb); destruct (Pos.compare_spec m ma);
    destruct (Pos.compare_spec m mb);
    intros; (reflexivity || discriminate || (exfalso; lia)).
Qed.

Lemma ltb_leb_trans (a b d : float) {ma mb : positive} {ea eb : Z} :
  Prim2SF a = S754_finite false ma ea ->
  Prim2SF b = S754_finite false mb eb ->
  (a <=? b)%float = true ->
  (d <? a)%float = true ->
  (d <? b)%float = true.
Proof.
  rewrite leb_spec, !ltb_spec. intros -> ->.
  apply SFltb_finite_trans.
Qed.

Lemma lt_5_lt_8 (d : float) :
  (d <? 5)%float = true -> (d <? 8)%float = true.
Proof. now apply (ltb_leb_trans 5 8 d eq_refl eq_refl). Qed.

Lemma lt_8_lt_10 (d : float) :
  (d <? 8)%float = true -> (d <? 10)%float = true.
Proof. now apply (ltb_leb_trans 8 10 d eq_refl eq_refl). Qed.

(** Only NaN differs from itself, and NaN is below nothing and above
    nothing. *)
Lemma SFcompare_refl_nan (x : spec_float) :
  SFeqb x x = false -> x = S754_nan.
Proof.
  unfold SFeqb.
  destruct x as [s | s | | s m e]; try destruct s; cbn [SFcompare];
    try discriminate; try reflexivity;
    rewrite Z.compare_refl;
    change (PosDef.Pos.compare_cont Eq) with Pos.compare;
    rewrite Pos.compare_refl; discriminate.
Qed.

Lemma is_nan_compare (d x : float) :
  is_nan d = true -> (d <? x)%float = false /\ (x <? d)%float = false.
Proof.
  unfold is_nan. rewrite negb_true_iff, eqb_spec, !ltb_spec.
  intros Hnan. rewrite (SFcompare_refl_nan _ Hnan).
  unfold SFltb. split; [reflexivity|].
  destruct (Prim2SF x) as [s | s | | s m e]; reflexivity.
Qed.

(** ** Laws of the biology modules *)

Section LineageLaws.

Context {E : Engine}.

(** Unfolds the dividing [Run]s down to their guards. *)
Ltac unfold_runs :=
  unfold Run, StemCell.Run, TransitAmplifying.Run, customises_daughter,
    decision_diameter, Divide, EventHandler, MyCellExt_division,
    GetDiameter, GetCellType, GetCanDivide, SetCanDivide, SetCellType;
  cbn [fst snd base can_divide_ cell_type_].

(** X1: the mother's flag after a dividing [Run], in closed form.  She
    keeps her [can_divide] exactly when her type is the module's (1 for
    [StemCell], 2 for [TransitAmplifying]) and her diameter is below the
    module's upper threshold (8, resp. 10); in every other case, a NaN
    diameter included, the flag is false afterwards. *)
Theorem Run_mother_flag_law (ev : CellDivisionEvent) (c : MyCell) :
  GetCanDivide (fst (StemCell.Run ev c))
  = GetCanDivide c
    && ((decision_diameter ev c <? 8)%float && (GetCellType c =? 1)%Z)
  /\ GetCanDivide (fst (TransitAmplifying.Run ev c))
     = GetCanDivide c
       && ((decision_diameter ev c <? 10)%float && (GetCellType c =? 2)%Z).
Proof.
  split.
  - pose proof (lt_5_lt_8 (decision_diameter ev c)) as Hlt.
    revert Hlt. unfold_runs.
    destruct (diameter_ _ <? 5)%float; intros Hlt.
    + rewrite (Hlt eq_refl).
      destruct (cell_type_ c =? 1)%Z; cbn [andb fst can_divide_];
        now rewrite ?andb_true_r, ?andb_false_r.
    + destruct (diameter_ _ <? 8)%float, (cell_type_ c =? 1)%Z;
        cbn [andb fst can_divide_];
        now rewrite ?andb_true_r, ?andb_false_r.
  - pose proof (lt_8_lt_10 (decision_diameter ev c)) as Hlt.
    revert Hlt. unfold_runs.
    destruct (diameter_ _ <? 8)%float; intros Hlt.
    + rewrite (Hlt eq_refl).
      destruct (cell_type_ c =? 2)%Z; cbn [andb fst can_divide_];
        now rewrite ?andb_true_r, ?andb_false_r.
    + destruct (diameter_ _ <? 10)%float, (cell_type_ c =? 2)%Z;
        cbn [andb fst can_divide_];
        now rewrite ?andb_true_r, ?andb_false_r.
Qed.

(** X2: the daughter of a dividing [Run].  There is exactly one; her base
    members (position, diameter, attached modules) are those the engine's
    division constructor gave her, since no [Run] writes them; and she can
    divide exactly when her mother could before the call or the [Run]
    took a customising arm. *)
Theorem Run_daughter_law (m : BiologyModule) (ev : CellDivisionEvent)
    (c : MyCell) :
  calls_Divide m = true ->
  exists d,
    snd (Run m ev c) = [d]
    /\ base d = Base_division ev (base c)
    /\ GetCanDivide d = GetCanDivide c || customises_daughter m ev c.
Proof.
  intros Hm. destruct m; try discriminate; unfold_runs;
    repeat match goal with
    | |- context [(?x <? ?y)%float] => destruct (x <? y)%float
    | |- context [(?x =? ?y)%Z] => destruct (x =? y)%Z
    end;
    cbn [andb orb fst snd]; eexists; (split; [reflexivity|]);
    cbn [base can_divide_]; split; try reflexivity;
    now rewrite ?orb_true_r, ?orb_false_r.
Qed.

(** X3: a daughter moves at most one stage.  When the [Run] customises
    her, her type is her mother's (the self-renewing arm) or her mother's
    plus one (the committing arm), and it is her mother's exactly when the
    diameter is below the module's lower threshold; otherwise no type is
    assigned and she has the value the division constructor left. *)
Theorem Run_daughter_type_law (m : BiologyModule) (ev : CellDivisionEvent)
    (c : MyCell) :
  calls_Divide m = true ->
  exists d,
    snd (Run m ev c) = [d]
    /\ (customises_daughter m ev c = true ->
        (GetCellType d = GetCellType c \/ GetCellType d = (GetCellType c + 1)%Z)
        /\ (GetCellType d = GetCellType c <->
            (decision_diameter ev c
               <? (match m with bmStemCell => 5 | _ => 8 end))%float = true))
    /\ (customises_daughter m ev c = false ->
        GetCellType d = vec_int_default).
Proof.
  intros Hm. destruct m; try discriminate; unfold_runs;
    repeat match goal with
    | |- context [(?x <? ?y)%float] => destruct (x <? y)%float
    | |- context [(?x =? ?y)%Z] => destruct (Z.eqb_spec x y)
    end;
    cbn [andb orb fst snd]; eexists; (split; [reflexivity|]);
    cbn [cell_type_]; (split; [| intros; (reflexivity || discriminate)]);
    intros; try discriminate;
    (split; [lia | split; intros; (reflexivity || discriminate || lia)]).
Qed.

(** X4: a NaN diameter fails every comparison.  Both dividing modules then
    take the deactivating arm, whatever the agent's type: the daughter is
    left as constructed and the mother's flag is cleared; and
    [DifferentiatedCell::Run] leaves the agent as it is. *)
Theorem Run_nan_diameter (ev : CellDivisionEvent) (c : MyCell) :
  (is_nan (decision_diameter ev c) = true ->
   StemCell.Run ev c
   = (SetCanDivide false (fst (Divide ev c)), [MyCellExt_division ev c])
   /\ TransitAmplifying.Run ev c
      = (SetCanDivide false (fst (Divide ev c)), [MyCellExt_division ev c]))
  /\ (is_nan (GetDiameter c) = true -> DifferentiatedCell.Run c = (c, [])).
Proof.
  split.
  - intros Hnan.
    destruct (is_nan_compare _ 5 Hnan) as [H5 _].
    destruct (is_nan_compare _ 8 Hnan) as [H8 _].
    destruct (is_nan_compare _ 10 Hnan) as [H10 _].
    split.
    + apply StemCell_Run_inactivate; [now rewrite H8 | now rewrite H5].
    + apply TransitAmplifying_Run_inactivate;
        [now rewrite H10 | now rewrite H8].
  - intros Hnan. destruct (is_nan_compare _ 10 Hnan) as [_ H10].
    unfold DifferentiatedCell.Run. now rewrite H10.
Qed.

(** X5: [DifferentiatedCell::Run] touches nothing but the type: base
    members and [can_divide] are as before.  It returns the agent
    unchanged exactly when the diameter is not above 10 or the type is 3
    already. *)
Theorem DifferentiatedCell_Run_fixed_points (c : MyCell) :
  base (fst (DifferentiatedCell.Run c)) = base c
  /\ GetCanDivide (fst (DifferentiatedCell.Run c)) = GetCanDivide c
  /\ (DifferentiatedCell.Run c = (c, []) <->
      (10 <? GetDiameter c)%float = false \/ GetCellType c = 3%Z).
Proof.
  unfold DifferentiatedCell.Run.
  destruct (10 <? GetDiameter c)%float; cbn [fst]; repeat split;
    try (intros; auto; fail).
  - intros Heq. right.
    apply (f_equal (fun r => GetCellType (fst r))) in Heq. cbn in Heq.
    now symmetry.
  - intros [Hd | Ht]; [discriminate|].
    destruct c as [b f t]. cbn in Ht. subst t. reflexivity.
Qed.

(** One [Run] leaves the type of the agent it is called on alone, unless
    it is the differentiated module, which may store 3. *)
Lemma Run_own_type (m : BiologyModule) (ev : CellDivisionEvent)
    (c : MyCell) :
  (calls_Divide m = true -> GetCellType (fst (Run m ev c)) = GetCellType c)
  /\ (GetCellType (fst (Run m ev c)) = GetCellType c
      \/ GetCellType (fst (Run m ev c)) = 3%Z).
Proof.
  destruct m; unfold Run, DifferentiatedCell.Run;
    [ destruct (StemCell_Run_shape ev c) as (b & d & ->)
    | destruct (TransitAmplifying_Run_shape ev c) as (b & d & ->)
    | destruct (10 <? GetDiameter c)%float ];
    try destruct b; cbn [fst]; split; auto; discriminate.
Qed.

Lemma Run_count (m : BiologyModule) (ev : CellDivisionEvent) (c : MyCell) :
  length (snd (Run m ev c)) = (if calls_Divide m then 1 else 0)%nat.
Proof.
  destruct m; unfold Run, DifferentiatedCell.Run;
    [ destruct (StemCell_Run_shape ev c) as (b & d & ->)
    | destruct (TransitAmplifying_Run_shape ev c) as (b & d & ->)
    | destruct (10 <? GetDiameter c)%float ]; reflexivity.
Qed.

(** X6: an agent's own type over any sequence of [Run]s, whatever the
    engine does to its base members in between: at the end it is the type
    it started with or 3, and if only dividing modules ran it is the type
    it started with.  A stem or transit-amplifying [Run] never promotes
    the agent it runs on, only daughters. *)
Theorem Run_steps_own_type
    (steps : list (BiologyModule * CellDivisionEvent * (Cell -> Cell)))
    (c : MyCell) :
  (GetCellType (fst (Run_steps steps c)) = GetCellType c
   \/ GetCellType (fst (Run_steps steps c)) = 3%Z)
  /\ (forallb (fun s => calls_Divide (fst (fst s))) steps = true ->
      GetCellType (fst (Run_steps steps c)) = GetCellType c).
Proof.
  revert c. induction steps as [| [[m ev] f] steps IH]; intros c.
  - split; auto.
  - cbn [Run_steps forallb fst].
    destruct (Run_own_type m ev (engine_update f c)) as [Hdiv Hany].
    change (GetCellType (engine_update f c)) with (GetCellType c)
      in Hdiv, Hany.
    destruct (Run m ev (engine_update f c)) as [c' created].
    cbn [fst] in Hdiv, Hany.
    destruct (IH c') as [IHany IHdiv].
    destruct (Run_steps steps c') as [c'' later]. cbn [fst] in *.
    split.
    + destruct IHany as [-> | ->]; auto.
    + intros Hall. apply andb_true_iff in Hall. destruct Hall as [Hm Hrest].
      rewrite (IHdiv Hrest). auto.
Qed.

(** X7: no [Run] ever declines to divide.  Over any sequence of [Run]s on
    an agent, whatever its flag, type and diameters, the agents created
    number exactly the steps that ran a dividing module. *)
Theorem Run_steps_count
    (steps : list (BiologyModule * CellDivisionEvent * (Cell -> Cell)))
    (c : MyCell) :
  length (snd (Run_steps steps c))
  = length (filter (fun s => calls_Divide (fst (fst s))) steps).
Proof.
  revert c. induction steps as [| [[m ev] f] steps IH]; intros c.
  - reflexivity.
  - cbn [Run_steps filter fst].
    pose proof (Run_count m ev (engine_update f c)) as Hlen.
    destruct (Run m ev (engine_update f c)) as [c' created].
    cbn [snd] in Hlen. specialize (IH c').
    destruct (Run_steps steps c') as [c'' later]. cbn [snd] in IH |- *.
    rewrite length_app, Hlen, IH.
    destruct (calls_Divide m); reflexivity.
Qed.

(** X8: the first stem step of a seeded agent.  An agent built by
    [construct_stem] has type 1 and a flag no code has set; if its
    diameter is below 5 when [StemCell::Run] decides, the call creates
    one stem daughter able to divide, and the mother keeps type 1 and the
    unset flag. *)
Theorem construct_stem_first_Run (ev : CellDivisionEvent) (p : array3) :
  (decision_diameter ev (construct_stem p) <? 5)%float = true ->
  exists d,
    snd (StemCell.Run ev (construct_stem p)) = [d]
    /\ GetCellType d = 1%Z /\ GetCanDivide d = true
    /\ GetCellType (fst (StemCell.Run ev (construct_stem p))) = 1%Z
    /\ GetCanDivide (fst (StemCell.Run ev (construct_stem p)))
       = vec_bool_default.
Proof.
  intros Hd.
  rewrite (StemCell_Run_renew ev (construct_stem p) Hd eq_refl).
  cbn [fst snd]. eexists. split; [reflexivity|]. repeat split.
Qed.

End LineageLaws.

(** ** Laws of the bulk creator *)

Section SeedingLaws.

Context {E : Engine}.

(** The calls one run of the creator appends to the container. *)
Lemma MyCellCreator_log {T} (min max : float) (count : Z)
    (cell_builder : array3 -> T) (sim : TRandom * Container T) :
  snd (MyCellCreator min max count cell_builder sim)
  = snd sim ++ [op_reserve count]
      ++ map op_push_back
           (map cell_builder
              (drawn_positions (Z.to_nat count) min max (fst sim)))
      ++ [op_Commit].
Proof.
  destruct sim as [random container]. unfold MyCellCreator.
  pose proof (MyCellCreator_loop_pushes min max cell_builder
                (Z.to_nat count) random (reserve count container)) as Hlog.
  destruct (MyCellCreator_loop (Z.to_nat count) min max cell_builder
              random (reserve count container)) as [r log].
  cbn [fst snd] in Hlog |- *. rewrite Hlog. unfold Commit, reserve.
  now rewrite <- !app_assoc.
Qed.

(** Replaying one run of the creator commits what was staged before it
    together with its own batch. *)
Lemma population_from_batch {T} (visible staged batch : list T) (n : Z)
    (rest : Container T) :
  population_from visible staged
    (op_reserve n :: map op_push_back batch ++ op_Commit :: rest)
  = population_from (visible ++ staged ++ batch) [] rest.
Proof.
  cbn [population_from]. rewrite population_from_push_backs.
  reflexivity.
Qed.

(** The loop advances the generator by two draws per iteration. *)
Lemma MyCellCreator_loop_random {T} (min max : float)
    (cell_builder : array3 -> T) (n : nat) :
  forall random container,
    fst (MyCellCreator_loop n min max cell_builder random container)
    = Nat.iter (2 * n) (fun r => snd (Uniform min max r)) random.
Proof.
  induction n as [| n IH]; intros random container.
  - reflexivity.
  - cbn [MyCellCreator_loop].
    replace (2 * S n)%nat with (S (S (2 * n))) by lia.
    rewrite !Nat.iter_succ_r. cbn beta.
    destruct (Uniform min max random) as [x r1]. cbn [snd].
    destruct (Uniform min max r1) as [y r2]. cbn [snd].
    apply IH.
Qed.

(** X9: what [Simulate] seeds.  Whatever the engine and the generator,
    the committed population of a fresh container after the seeding call
    is 200 agents, each of type 1 and diameter 2, carrying the [StemCell]
    module and nothing else, lying in the plane z = 0, and with a
    [can_divide] that no code has set. *)
Theorem Simulate_seed_population (random : TRandom) :
  length (population (snd (Simulate_seed (random, [])))) = 200%nat
  /\ Forall (fun a =>
       GetCellType a = 1%Z
       /\ GetDiameter a = 2%float
       /\ biology_modules_ (base a) = [bmStemCell]
       /\ snd (GetPosition a) = 0%float
       /\ GetCanDivide a = vec_bool_default)
     (population (snd (Simulate_seed (random, [])))).
Proof.
  unfold Simulate_seed. rewrite MyCellCreator_log. cbn [fst snd].
  unfold population. cbn [app]. rewrite population_from_batch.
  cbn [population_from app]. split.
  - rewrite length_map, drawn_positions_length. reflexivity.
  - rewrite Forall_map.
    generalize (Z.to_nat 200). intros n. revert random.
    induction n as [| n IH]; intros random; cbn [drawn_positions].
    + constructor.
    + destruct (Uniform min_bound_ max_bound_ random) as [x r1].
      destruct (Uniform min_bound_ max_bound_ r1) as [y r2].
      constructor; [now repeat split | apply IH].
Qed.

(** X10: a count that is zero or negative.  The loop body never runs:
    the generator is returned as it came, and the container only receives
    [reserve(count)], with the count passed on as it is, and [Commit]. *)
Theorem MyCellCreator_nonpositive {T} (min max : float) (count : Z)
    (cell_builder : array3 -> T) (random : TRandom)
    (container : Container T) :
  (count <= 0)%Z ->
  MyCellCreator min max count cell_builder (random, container)
  = (random, container ++ [op_reserve count; op_Commit]).
Proof.
  intros Hcount. unfold MyCellCreator.
  replace (Z.to_nat count) with 0%nat by lia.
  cbn [MyCellCreator_loop]. unfold Commit, reserve.
  now rewrite <- app_assoc.
Qed.

(** X11: the creator's use of the generator.  It makes exactly two draws
    per agent, all with the bounds it was given: the generator it leaves
    is the one it received advanced by [2 * count] calls of
    [Uniform(min, max)], whatever the builder and the container. *)
Theorem MyCellCreator_random {T} (min max : float) (count : Z)
    (cell_builder : array3 -> T) (random : TRandom)
    (container : Container T) :
  fst (MyCellCreator min max count cell_builder (random, container))
  = Nat.iter (2 * Z.to_nat count)
      (fun r => snd (Uniform min max r)) random.
Proof.
  unfold MyCellCreator.
  pose proof (MyCellCreator_loop_random min max cell_builder
                (Z.to_nat count) random (reserve count container)) as Hr.
  destruct (MyCellCreator_loop (Z.to_nat count) min max cell_builder
              random (reserve count container)) as [r log].
  exact Hr.
Qed.

(** X12: seeding twice accumulates.  A second run of the creator on the
    simulation the first one left keeps the first batch and commits its
    own after it, drawn from the generator state the first run left; the
    population is the two batches in order. *)
Theorem MyCellCreator_twice {T} (min1 max1 min2 max2 : float)
    (count1 count2 : Z) (builder1 builder2 : array3 -> T)
    (random : TRandom) :
  let sim1 := MyCellCreator min1 max1 count1 builder1 (random, []) in
  let sim2 := MyCellCreator min2 max2 count2 builder2 sim1 in
  population (snd sim2)
  = map builder1 (drawn_positions (Z.to_nat count1) min1 max1 random)
    ++ map builder2
         (drawn_positions (Z.to_nat count2) min2 max2 (fst sim1))
  /\ length (population (snd sim2))
     = (Z.to_nat count1 + Z.to_nat count2)%nat.
Proof.
  intros sim1 sim2.
  assert (Hpop : population (snd sim2)
    = map builder1 (drawn_positions (Z.to_nat count1) min1 max1 random)
      ++ map builder2
           (drawn_positions (Z.to_nat count2) min2 max2 (fst sim1))).
  { unfold sim2. rewrite MyCellCreator_log. unfold sim1 at 1.
    rewrite MyCellCreator_log. cbn [fst snd]. unfold population.
    cbn [app]. rewrite <- app_assoc. cbn [app].
    rewrite !population_from_batch. cbn [population_from app].
    reflexivity. }
  split; [exact Hpop|].
  rewrite Hpop, length_app, !length_map, !drawn_positions_length.
  reflexivity.
Qed.

End SeedingLaws.

(** ** Closed instances of the laws *)

Lemma Run_daughter_law_witness :
  exists d,
    snd (@Run reference_engine bmTransitAmplifying tt (agent 12 false 2)) = [d]
    /\ base d = @Base_division reference_engine tt (base (agent 12 false 2))
    /\ GetCanDivide d
       = GetCanDivide (agent 12 false 2)
         || @customises_daughter reference_engine bmTransitAmplifying tt
              (agent 12 false 2).
Proof.
  apply (@Run_daughter_law reference_engine bmTransitAmplifying tt
           (agent 12 false 2)).
  reflexivity.
Defined.

Lemma Run_daughter_type_law_witness :
  exists d,
    snd (@Run reference_engine bmTransitAmplifying tt (agent 9 true 2)) = [d]
    /\ (@customises_daughter reference_engine bmTransitAmplifying tt
          (agent 9 true 2) = true ->
        (GetCellType d = GetCellType (agent 9 true 2)
         \/ GetCellType d = (GetCellType (agent 9 true 2) + 1)%Z)
        /\ (GetCellType d = GetCellType (agent 9 true 2) <->
            (@decision_diameter reference_engine tt (agent 9 true 2)
               <? 8)%float = true))
    /\ (@customises_daughter reference_engine bmTransitAmplifying tt
          (agent 9 true 2) = false ->
        GetCellType d = @vec_int_default reference_engine).
Proof.
  apply (@Run_daughter_type_law reference_engine bmTransitAmplifying tt
           (agent 9 true 2)).
  reflexivity.
Defined.

Lemma Run_nan_diameter_witness :
  @StemCell.Run reference_engine tt (agent nan true 1)
  = (SetCanDivide false (fst (@Divide reference_engine tt (agent nan true 1))),
     [@MyCellExt_division reference_engine tt (agent nan true 1)])
  /\ @TransitAmplifying.Run reference_engine tt (agent nan true 1)
     = (SetCanDivide false
          (fst (@Divide reference_engine tt (agent nan true 1))),
        [@MyCellExt_division reference_engine tt (agent nan true 1)]).
Proof.
  apply (proj1 (@Run_nan_diameter reference_engine tt (agent nan true 1))).
  reflexivity.
Defined.

Lemma construct_stem_first_Run_witness :
  exists d,
    snd (@StemCell.Run reference_engine tt
           (@construct_stem reference_engine (1, 2, 0)%float)) = [d]
    /\ GetCellType d = 1%Z /\ GetCanDivide d = true
    /\ GetCellType
         (fst (@StemCell.Run reference_engine tt
                 (@construct_stem reference_engine (1, 2, 0)%float))) = 1%Z
    /\ GetCanDivide
         (fst (@StemCell.Run reference_engine tt
                 (@construct_stem reference_engine (1, 2, 0)%float)))
       = @vec_bool_default reference_engine.
Proof.
  apply (@construct_stem_first_Run reference_engine tt (1, 2, 0)%float).
  reflexivity.
Defined.

Lemma MyCellCreator_nonpositive_witness :
  @MyCellCreator reference_engine MyCell min_bound_ max_bound_ (-3)
    (@construct_stem reference_engine) (7%nat, [op_Commit])
  = (7%nat, [op_Commit] ++ [op_reserve (-3); op_Commit]).
Proof.
  apply (@MyCellCreator_nonpositive reference_engine MyCell min_bound_
           max_bound_ (-3) (@construct_stem reference_engine) 7%nat
           [op_Commit]).
  lia.
Defined.
